(** * Componentize.js: registry, upgrade and downgrade of components

    A shallow embedding of [src/componentize.js].  The module keeps two
    arrays ([_registeredComponents], [_createdComponents]) and records, on
    every upgraded DOM element, the attribute [data-upgraded-components]
    and one expando property per component name.

    Modelling conventions.
    - A JavaScript string is a [string]; its characters stand for code
      units below 256.
    - DOM elements live in a heap indexed by element identity
      ([ElemId]); an identity that was never written denotes an element
      without classes, without the marker attribute and without expando
      properties.
    - A function of the page (a component constructor, a method found
      on a value passed where an element is expected) is an opaque
      callable: [new C(element)] yields a fresh object, and a call
      returns without touching the registry or the modelled part of the
      DOM.  [console.warn] output is not part of the state.
    - Expando properties written by the registry ([element[name]]) are
      kept apart from the members of the DOM interface.
    - An exception leaves the state as it was when it was raised, so a
      throwing call returns the state together with the exception. *)

From Stdlib Require Import ZArith Lia Ascii.
From stdpp Require Import base decidable option list strings gmap fin_maps.


(** ** JavaScript strings and arrays of strings *)

Module JsString.

(** [s.startsWith(p)] *)
Fixpoint startsWith (s p : string) : bool :=
  match p, s with
  | EmptyString, _ => true
  | String _ _, EmptyString => false
  | String b p', String a s' => bool_decide (a = b) && startsWith s' p'
  end.

(** [s.indexOf(p)], scanning from position [i]; [-1] when absent. *)
Fixpoint indexOf_from (s p : string) (i : Z) : Z :=
  if startsWith s p then i
  else match s with
       | EmptyString => (-1)%Z
       | String _ s' => indexOf_from s' p (i + 1)
       end.

Definition indexOf (s p : string) : Z := indexOf_from s p 0.

Definition comma : ascii := Ascii.ascii_of_nat 44.

(** [s.split(',')]: never empty, the empty string splits to [[""]]. *)
Fixpoint split (s : string) : list string :=
  match s with
  | EmptyString => [EmptyString]
  | String c s' =>
      if bool_decide (c = comma) then EmptyString :: split s'
      else match split s' with
           | h :: t => String c h :: t
           | [] => [String c EmptyString]
           end
  end.

(** [a.join(',')] *)
Fixpoint join (a : list string) : string :=
  match a with
  | [] => EmptyString
  | [x] => x
  | x :: a' => x +:+ String comma (join a')
  end.

(** [s.length] is zero *)
Definition isEmpty (s : string) : bool :=
  match s with EmptyString => true | _ => false end.

End JsString.

Module JsArray.

(** [a.indexOf(x)] on an array of strings, strict equality. *)
Fixpoint indexOf_from (a : list string) (x : string) (i : Z) : Z :=
  match a with
  | [] => (-1)%Z
  | y :: a' => if bool_decide (y = x) then i else indexOf_from a' x (i + 1)
  end.

Definition indexOf (a : list string) (x : string) : Z := indexOf_from a x 0.

(** [a.splice(i, 1)] for an index [i >= 0]. *)
Definition splice1 {A} (a : list A) (i : Z) : list A := delete (Z.to_nat i) a.

End JsArray.

(** ** JavaScript values handed to the public interface *)

Inductive FunId :=
| FObject              (* the built-in [Object] constructor *)
| FUser (n : nat).     (* a function of the page *)

#[warnings="-register-all"] Inductive Value :=
| VUndefined
| VNull
| VBoolean (b : bool)
| VNumber (z : Z)
| VString (s : string)
| VFunction (f : FunId)
| VObject (own : list (string * Value)) (proto : Value).

Global Instance FunId_eq_dec : EqDecision FunId.
Proof. solve_decision. Defined.

(** [Object.prototype]: of its members only [constructor] is looked up
    by the registry. *)
Definition ObjectPrototype : Value :=
  VObject [("constructor", VFunction FObject)] VNull.

(** An object literal [{ k1: v1, ... }]. *)
Definition literal (own : list (string * Value)) : Value :=
  VObject own ObjectPrototype.

Definition typeof (v : Value) : string :=
  match v with
  | VUndefined => "undefined"
  | VNull => "object"
  | VBoolean _ => "boolean"
  | VNumber _ => "number"
  | VString _ => "string"
  | VFunction _ => "function"
  | VObject _ _ => "object"
  end.

Fixpoint assoc (own : list (string * Value)) (key : string) : option Value :=
  match own with
  | [] => None
  | (k, v) :: own' => if bool_decide (k = key) then Some v else assoc own' key
  end.

(** [v[key]] for a value that is an object: own property first, then the
    prototype chain.  [None] is the TypeError of reading a property of
    [null] or [undefined]; primitives have none of the keys the registry
    reads. *)
Fixpoint Get (v : Value) (key : string) : option Value :=
  match v with
  | VUndefined | VNull => None
  | VObject own proto =>
      match assoc own key with
      | Some x => Some x
      | None => match proto with
                | VObject _ _ => Get proto key
                | _ => Some VUndefined
                end
      end
  | _ => Some VUndefined
  end.

(** ** ToNumber on strings, as used by the comparison [array < 2] *)

Module JsNumber.

Local Open Scope Z_scope.

(** The mathematical value of a numeric literal is [m * 10^e]. *)
Inductive Number :=
| NaN
| PlusInfinity
| MinusInfinity
| Decimal (m e : Z).

Definition code (c : ascii) : Z := Z.of_nat (Ascii.nat_of_ascii c).

Definition isStrWhiteSpaceChar (c : ascii) : bool :=
  let n := code c in
  (n =? 9) || (n =? 10) || (n =? 11) || (n =? 12) || (n =? 13)
  || (n =? 32) || (n =? 160).

Fixpoint skipWhiteSpace (cs : list ascii) : list ascii :=
  match cs with
  | c :: cs' => if isStrWhiteSpaceChar c then skipWhiteSpace cs' else cs
  | [] => []
  end.

Definition trim (cs : list ascii) : list ascii :=
  rev (skipWhiteSpace (rev (skipWhiteSpace cs))).

Definition digitValue (radix : Z) (c : ascii) : option Z :=
  let n := code c in
  let v := if (48 <=? n) && (n <=? 57) then n - 48
           else if (97 <=? n) && (n <=? 102) then n - 87
           else if (65 <=? n) && (n <=? 70) then n - 55
           else radix in
  if v <? radix then Some v else None.

(** Reads the longest run of digits: accumulated value, number of
    digits read, remaining input. *)
Fixpoint readDigits (radix : Z) (cs : list ascii) (acc count : Z)
  : Z * Z * list ascii :=
  match cs with
  | c :: cs' =>
      match digitValue radix c with
      | Some v => readDigits radix cs' (acc * radix + v) (count + 1)
      | None => (acc, count, cs)
      end
  | [] => (acc, count, [])
  end.

Definition isChar (c : ascii) (n : Z) : bool := code c =? n.

(** ExponentPart (optional), then end of input. *)
Definition parseExponent (cs : list ascii) (m e0 : Z) : Number :=
  match cs with
  | [] => Decimal m e0
  | c :: cs' =>
      if isChar c 101 || isChar c 69 then
        let '(sign, ds) :=
          match cs' with
          | d :: ds' => if isChar d 43 then (1, ds')
                        else if isChar d 45 then (-1, ds')
                        else (1, cs')
          | [] => (1, [])
          end in
        match readDigits 10 ds 0 0 with
        | (x, n, []) => if 0 <? n then Decimal m (e0 + sign * x) else NaN
        | _ => NaN
        end
      else NaN
  end.

Definition Infinity_chars : list ascii := String.list_ascii_of_string "Infinity".

(** StrUnsignedDecimalLiteral *)
Definition parseUnsignedDecimal (cs : list ascii) : Number :=
  if bool_decide (cs = Infinity_chars) then PlusInfinity
  else
    match readDigits 10 cs 0 0 with
    | (ip, ic, r1) =>
        match r1 with
        | c :: r2 =>
            if isChar c 46 then
              match readDigits 10 r2 ip 0 with
              | (fp, fc, r3) =>
                  if (ic =? 0) && (fc =? 0) then NaN
                  else parseExponent r3 fp (- fc)
              end
            else if ic =? 0 then NaN else parseExponent r1 ip 0
        | [] => if ic =? 0 then NaN else Decimal ip 0
        end
    end.

Definition negate (n : Number) : Number :=
  match n with
  | NaN => NaN
  | PlusInfinity => MinusInfinity
  | MinusInfinity => PlusInfinity
  | Decimal m e => Decimal (- m) e
  end.

(** NonDecimalIntegerLiteral: [0x], [0o], [0b] prefixes, no sign. *)
Definition parseNonDecimal (cs : list ascii) : option Number :=
  match cs with
  | z :: p :: ds =>
      if isChar z 48 then
        let radix := if isChar p 120 || isChar p 88 then 16
                     else if isChar p 111 || isChar p 79 then 8
                     else if isChar p 98 || isChar p 66 then 2
                     else 0 in
        if radix =? 0 then None
        else match readDigits radix ds 0 0 with
             | (x, n, []) => Some (if 0 <? n then Decimal x 0 else NaN)
             | _ => Some NaN
             end
      else None
  | _ => None
  end.

(** StringToNumber *)
Definition StringToNumber (s : string) : Number :=
  match trim (String.list_ascii_of_string s) with
  | [] => Decimal 0 0
  | (c :: cs') as cs =>
      match parseNonDecimal cs with
      | Some n => n
      | None =>
          if isChar c 43 then parseUnsignedDecimal cs'
          else if isChar c 45 then negate (parseUnsignedDecimal cs')
          else parseUnsignedDecimal cs
      end
  end.

(** [n < 2] on Number values.  The literal is rounded to the nearest
    binary64 value (ties to even) before the comparison, so exactly the
    mathematical values below [2 - 2^-53] compare as smaller than 2. *)
Definition lessThan2 (n : Number) : bool :=
  match n with
  | NaN => false
  | PlusInfinity => false
  | MinusInfinity => true
  | Decimal m e =>
      if 0 <=? e then m * 10 ^ e * 2 ^ 53 <? 2 ^ 54 - 1
      else m * 2 ^ 53 <? (2 ^ 54 - 1) * 10 ^ (- e)
  end.

(** [a < 2] for an array [a] of strings: the array is converted with
    [toString], which is [join(',')], and the string with ToNumber. *)
Definition array_lessThan2 (a : list string) : bool :=
  lessThan2 (StringToNumber (JsString.join a)).

End JsNumber.

(** ** Data model *)

Abbreviation ElemId := nat.

(** [Componentize.ComponentConfig], as stored by [_register]. *)
Record ComponentConfig := {
  constructor : FunId;
  name : string;
  cssClass : string;
}.

(** A created component: the object built by the constructor, with the
    two properties the registry injects into it. *)
Record Instance := {
  element : ElemId;
  _ComponentConfig : ComponentConfig;
}.

(** The part of an HTMLElement the registry reads and writes. *)
Record Element := {
  classList : list string;
  dataset_upgraded : option string;      (* data-upgraded-components *)
  expando : gmap string Instance;        (* element[componentName] *)
}.

Record State := {
  _registeredComponents : list ComponentConfig;
  _createdComponents : list Instance;
  heap : gmap nat Element;
}.

Global Instance ComponentConfig_eq_dec : EqDecision ComponentConfig.
Proof. solve_decision. Defined.

Global Instance Instance_eq_dec : EqDecision Instance.
Proof. solve_decision. Defined.

Definition fresh_element : Element :=
  {| classList := []; dataset_upgraded := None; expando := ∅ |}.

Definition elementOf (s : State) (el : ElemId) : Element :=
  default fresh_element (heap s !! el).

Definition updateElement (el : ElemId) (f : Element → Element) (s : State) : State :=
  {| _registeredComponents := _registeredComponents s;
     _createdComponents := _createdComponents s;
     heap := <[el := f (elementOf s el)]> (heap s) |}.

(** [element.getAttribute('data-' + DATASET_UPGRADED)]; [None] is [null]. *)
Definition getAttribute (s : State) (el : ElemId) : option string :=
  dataset_upgraded (elementOf s el).

(** [element.setAttribute('data-' + DATASET_UPGRADED, v)] *)
Definition setAttribute (el : ElemId) (v : string) : State → State :=
  updateElement el (λ e,
    {| classList := classList e; dataset_upgraded := Some v; expando := expando e |}).

(** [element[key] = instance] *)
Definition setProperty (el : ElemId) (key : string) (i : Instance) : State → State :=
  updateElement el (λ e,
    {| classList := classList e; dataset_upgraded := dataset_upgraded e;
       expando := <[key := i]> (expando e) |}).

(** [delete element[key]] *)
Definition deleteProperty (el : ElemId) (key : string) : State → State :=
  updateElement el (λ e,
    {| classList := classList e; dataset_upgraded := dataset_upgraded e;
       expando := delete key (expando e) |}).

(** [element[key]] *)
Definition getProperty (s : State) (el : ElemId) (key : string) : option Instance :=
  expando (elementOf s el) !! key.

Definition setCreated (l : list Instance) (s : State) : State :=
  {| _registeredComponents := _registeredComponents s;
     _createdComponents := l;
     heap := heap s |}.

Definition setRegistered (l : list ComponentConfig) (s : State) : State :=
  {| _registeredComponents := l;
     _createdComponents := _createdComponents s;
     heap := heap s |}.

(** ** Completions *)

Inductive Exception :=
| Error (message : string)
| TypeError
| SyntaxError.

Inductive Completion :=
| Normal (s : State)
| Throw (e : Exception) (s : State).

Definition state_of (r : Completion) : State :=
  match r with Normal s => s | Throw _ s => s end.

Definition andThen (r : Completion) (k : State → Completion) : Completion :=
  match r with
  | Normal s => k s
  | Throw e s => Throw e s
  end.

(** A loop whose body may throw. *)
Fixpoint forEach {A} (body : A → State → Completion) (l : list A) (s : State)
  : Completion :=
  match l with
  | [] => Normal s
  | x :: l' => andThen (body x s) (forEach body l')
  end.

(** ** Constants *)

Definition MESSAGE_ERROR_CONFIG : string :=
  "Please, provide a valid data config for component.".

Definition DATASET_UPGRADED : string := "upgraded-components".

Definition dquote : string := String (Ascii.ascii_of_nat 34) EmptyString.

Definition MESSAGE_ERROR_CLASS (c : string) : string :=
  "The css class " +:+ dquote +:+ c +:+ dquote +:+ " is already registered.".

(** What a caller passes where an element is expected. *)
Inductive Target :=
| TElement (el : ElemId)     (* an HTMLElement *)
| TValue (v : Value).        (* any other value *)

(** [typeof v === 'string' && v.length] *)
Definition asNonEmptyString (v : Value) : option string :=
  match v with
  | VString c => if JsString.isEmpty c then None else Some c
  | _ => None
  end.

(** [v[key](...)] can be called: the property is a function. *)
Definition hasMethod (v : Value) (key : string) : bool :=
  match Get v key with
  | Some (VFunction _) => true
  | _ => false
  end.

(** ** The registry *)

Section Registry.

(** [document.querySelectorAll(selector)]: the host's selector engine.
    [None] is the SyntaxError raised for a selector that does not
    parse; otherwise the matching elements in document order. *)
Variable querySelectorAll : string → State → option (list ElemId).

(** The loop that looks a css class up in [_registeredComponents] and
    stops at the first hit. *)
Fixpoint findByClass (l : list ComponentConfig) (c : string)
  : option ComponentConfig :=
  match l with
  | [] => None
  | registered :: l' =>
      if bool_decide (cssClass registered = c) then Some registered
      else findByClass l' c
  end.

Definition _getRegisteredByClass (s : State) (c : string)
  : option ComponentConfig :=
  findByClass (_registeredComponents s) c.

Definition _getComponentList (s : State) (el : ElemId) : list string :=
  foldl (λ componentList _,
           foldl (λ componentList component,
                    if (JsArray.indexOf componentList
                          (name (_ComponentConfig component)) =? -1)%Z
                       && bool_decide (element component = el)
                    then componentList ++ [name (_ComponentConfig component)]
                    else componentList)
                 componentList (_createdComponents s))
        [] (classList (elementOf s el)).

Definition _isUpgradedElement (s : State) (el : ElemId) (componentName : string)
  : bool :=
  match getAttribute s el with
  | None => false
  | Some upgradeds =>
      if JsString.isEmpty upgradeds then false
      else negb (JsString.indexOf upgradeds componentName =? -1)%Z
  end.

(** The refusal of an element without the class only writes to the
    console. *)
Definition _upgradeElementInternal (el : ElemId) (componentConfig : ComponentConfig)
    (s : State) : State :=
  if negb (bool_decide (cssClass componentConfig ∈ classList (elementOf s el)))
  then s
  else if _isUpgradedElement s el (name componentConfig) then s
  else
    let componentList := _getComponentList s el ++ [name componentConfig] in
    let instance := {| element := el; _ComponentConfig := componentConfig |} in
    let s := setProperty el (name componentConfig) instance s in
    let s := setAttribute el (JsString.join componentList) s in
    setCreated (_createdComponents s ++ [instance]) s.

Definition _upgradeInternal (registered : ComponentConfig) (s : State)
  : Completion :=
  match querySelectorAll ("." +:+ cssClass registered) s with
  | None => Throw SyntaxError s
  | Some elements =>
      Normal (foldl (λ s el, _upgradeElementInternal el registered s) s elements)
  end.

(** The scan of [_createdComponents] that splices out the first
    instance of the pair. *)
Fixpoint removeCreated (el : ElemId) (componentName : string) (l : list Instance)
  : list Instance :=
  match l with
  | [] => []
  | createdComponent :: l' =>
      if bool_decide (element createdComponent = el)
         && bool_decide (name (_ComponentConfig createdComponent) = componentName)
      then l'
      else createdComponent :: removeCreated el componentName l'
  end.

Definition _downgradeElementInternal (el : ElemId) (componentName : string)
    (s : State) : Completion :=
  match getAttribute s el with
  | None => Throw TypeError s
  | Some componentsAsString =>
      let componentList := JsString.split componentsAsString in
      let componentIndex := JsArray.indexOf componentList componentName in
      if (componentIndex =? -1)%Z then Normal s
      else
        let componentList := JsArray.splice1 componentList componentIndex in
        let s := setAttribute el (JsString.join componentList) s in
        let s := setCreated (removeCreated el componentName (_createdComponents s)) s in
        Normal (deleteProperty el componentName s)
  end.

Definition _register (config : Value) (s : State) : Completion :=
  let invalid := Throw (Error MESSAGE_ERROR_CONFIG) s in
  if bool_decide (typeof config = "undefined")
     || negb (bool_decide (typeof config = "object"))
  then invalid
  else
    match Get config "constructor" with
    | None => Throw TypeError s
    | Some (VFunction ctor) =>
        match Get config "name" with
        | None => Throw TypeError s
        | Some (VString n) =>
            if JsString.isEmpty n then invalid
            else
              match Get config "cssClass" with
              | None => Throw TypeError s
              | Some (VString c) =>
                  if JsString.isEmpty c then invalid
                  else
                    let configInternal :=
                      {| constructor := ctor; name := n; cssClass := c |} in
                    andThen
                      (forEach (λ registered s,
                                  if bool_decide (cssClass registered = c)
                                  then Throw (Error (MESSAGE_ERROR_CLASS c)) s
                                  else Normal s)
                               (_registeredComponents s) s)
                      (λ s, Normal (setRegistered
                                      (_registeredComponents s ++ [configInternal]) s))
              | Some _ => invalid
              end
        | Some _ => invalid
        end
    | Some _ => invalid
    end.

Definition _upgradeElement (target : Target) (optionalCssClass : Value)
    (s : State) : Completion :=
  match target with
  | TValue _ => Normal s
  | TElement el =>
      match asNonEmptyString optionalCssClass with
      | Some c =>
          match _getRegisteredByClass s c with
          | Some registeredComponent =>
              Normal (_upgradeElementInternal el registeredComponent s)
          | None => Normal s
          end
      | None =>
          forEach (λ c s,
                     match _getRegisteredByClass s c with
                     | Some registeredComponent =>
                         Normal (_upgradeElementInternal el registeredComponent s)
                     | None => Normal s
                     end)
                  (classList (elementOf s el)) s
      end
  end.

(** [registered['cssClass'] === v] *)
Definition strictEqualsString (c : string) (v : Value) : bool :=
  match v with
  | VString c' => bool_decide (c = c')
  | _ => false
  end.

Definition _upgrade (c : Value) (s : State) : Completion :=
  forEach (λ registered s,
             if strictEqualsString (cssClass registered) c
             then _upgradeInternal registered s
             else Normal s)
          (_registeredComponents s) s.

Definition _upgradeAll (s : State) : Completion :=
  forEach _upgradeInternal (_registeredComponents s) s.

Definition _downgradeElement (target : Target) (optionalCssClass : Value)
    (s : State) : Completion :=
  match target with
  | TValue v =>
      (* [element.getAttribute(...)] runs before the instanceof test *)
      if hasMethod v "getAttribute" then Normal s else Throw TypeError s
  | TElement el =>
      let componentsAsString := getAttribute s el in
      match asNonEmptyString optionalCssClass with
      | Some c =>
          match findByClass (_registeredComponents s) c with
          | Some registered => _downgradeElementInternal el (name registered) s
          | None => Normal s
          end
      | None =>
          match componentsAsString with
          | None => Normal s
          | Some str =>
              if JsNumber.array_lessThan2 (JsString.split str) then Normal s
              else
                forEach (_downgradeElementInternal el) (JsString.split str) s
          end
      end
  end.

Definition _downgrade (c : Value) (s : State) : Completion :=
  match asNonEmptyString c with
  | None => Normal s
  | Some c =>
      let componentName := name <$> findByClass (_registeredComponents s) c in
      let elementsSelector :=
        "[data-" +:+ DATASET_UPGRADED +:+ "*=" +:+ default "undefined" componentName +:+ "]" in
      match querySelectorAll elementsSelector s with
      | None => Throw SyntaxError s
      | Some elements =>
          forEach (λ el s,
                     match componentName with
                     | Some n => _downgradeElementInternal el n s
                     | None =>
                         (* [undefined] is no entry of the split list *)
                         match getAttribute s el with
                         | None => Throw TypeError s
                         | Some _ => Normal s
                         end
                     end)
                  elements s
      end
  end.

(** The [for] loop of [_downgradeAll], [n] iterations left. *)
Fixpoint downgradeAll_loop (n : nat) (s : State) : Completion :=
  match n with
  | O => Normal s
  | S n' =>
      match _createdComponents s with
      | [] => Throw TypeError s
      | createdComponent :: _ =>
          andThen
            (_downgradeElementInternal (element createdComponent)
               (name (_ComponentConfig createdComponent)) s)
            (downgradeAll_loop n')
      end
  end.

Definition _downgradeAll (s : State) : Completion :=
  downgradeAll_loop (length (_createdComponents s)) s.

Definition _getAllRegistered (s : State) : list ComponentConfig :=
  _registeredComponents s.

Definition _getAllCreated (s : State) : list Instance :=
  _createdComponents s.

End Registry.

(** ** Vocabulary of the properties *)

(** The marker list of an element: the entries of its attribute, none
    when the attribute is absent. *)
Definition markerList (s : State) (el : ElemId) : list string :=
  match getAttribute s el with
  | None => []
  | Some m => JsString.split m
  end.

(** Number of entries of a list equal to [n]. *)
Definition occurrences (n : string) (l : list string) : nat :=
  length (filter (λ x, x = n) l).

(** The instances of the table that belong to element [el] and carry
    the component name [n]. *)
Definition instancesOf (s : State) (el : ElemId) (n : string) : list Instance :=
  filter (λ i, element i = el ∧ name (_ComponentConfig i) = n) (_createdComponents s).

(** The component names of the instances created on [el], oldest first. *)
Definition namesOf (l : list Instance) (el : ElemId) : list string :=
  (λ i, name (_ComponentConfig i)) <$> filter (λ i, element i = el) l.

Definition namesOn (s : State) (el : ElemId) : list string :=
  namesOf (_createdComponents s) el.



Fixpoint removeFirst (n : string) (l : list string) : list string :=
  match l with
  | [] => []
  | x :: l' => if bool_decide (x = n) then l' else x :: removeFirst n l'
  end.



(** A value that [register] takes for the definition [d]. *)
Definition isDefinition (config : Value) (d : ComponentConfig) : Prop :=
  typeof config = "object"
  ∧ Get config "constructor" = Some (VFunction (constructor d))
  ∧ Get config "name" = Some (VString (name d))
  ∧ name d ≠ EmptyString
  ∧ Get config "cssClass" = Some (VString (cssClass d))
  ∧ cssClass d ≠ EmptyString.

(** Calls of the public interface. *)
Inductive Call :=
| DoRegister (config : Value)
| DoUpgradeElement (target : Target) (optionalCssClass : Value)
| DoUpgrade (c : Value)
| DoUpgradeAll
| DoDowngradeElement (target : Target) (optionalCssClass : Value)
| DoDowngrade (c : Value)
| DoDowngradeAll.

Definition call (querySelectorAll : string → State → option (list ElemId))
    (c : Call) : State → Completion :=
  match c with
  | DoRegister config => _register config
  | DoUpgradeElement target optionalCssClass => _upgradeElement target optionalCssClass
  | DoUpgrade c => _upgrade querySelectorAll c
  | DoUpgradeAll => _upgradeAll querySelectorAll
  | DoDowngradeElement target optionalCssClass => _downgradeElement target optionalCssClass
  | DoDowngrade c => _downgrade querySelectorAll c
  | DoDowngradeAll => _downgradeAll
  end.

(** A script: the calls run one after the other; a call that throws
    leaves the state it had reached and the script goes on. *)
Fixpoint run (querySelectorAll : string → State → option (list ElemId))
    (script : list Call) (s : State) : State :=
  match script with
  | [] => s
  | c :: script' => run querySelectorAll script' (state_of (call querySelectorAll c s))
  end.


(** The registry right after the module is evaluated: both tables
    empty, over a page [h]. *)
Definition initialState (h : gmap nat Element) : State :=
  {| _registeredComponents := []; _createdComponents := []; heap := h |}.


(** An operation keeps a property of states, whether it returns or
    throws. *)
Definition keeps (P : State → Prop) (op : State → Completion) : Prop :=
  ∀ s, P s → P (state_of (op s)).

(** ** Concrete pages and configurations *)

(** A page with the single element [0], carrying the given classes. *)
Definition page_of (classes : list string) : gmap nat Element :=
  {[ 0 := {| classList := classes; dataset_upgraded := None; expando := ∅ |} ]}.

(** The object literal [{ name: n, cssClass: c, constructor: f }] for a
    function [f] of the page. *)
Definition config_of (n c : string) : Value :=
  literal [("name", VString n); ("cssClass", VString c);
           ("constructor", VFunction (FUser 0))].

(** The definition [_register] stores for [config_of n c]. *)
Definition definition_of (n c : string) : ComponentConfig :=
  {| constructor := FUser 0; name := n; cssClass := c |}.

(** A selector engine for scripts that query nothing. *)
Definition no_match : string → State → option (list ElemId) := λ _ _, Some [].

(** A selector engine that answers every query with the element [0]. *)
Definition match_first : string → State → option (list ElemId) := λ _ _, Some [0].

(** ** Vocabulary of the further properties *)



(** * The primitives on concrete inputs *)

Section Primitives.

Example split_empty : JsString.split "" = [""].
Proof. reflexivity. Qed.

Example split_entries : JsString.split "a,b,,c" = ["a"; "b"; ""; "c"].
Proof. reflexivity. Qed.

Example join_entries : JsString.join ["Clock"; "ClockPro"] = "Clock,ClockPro".
Proof. reflexivity. Qed.

Example join_none : JsString.join [] = "".
Proof. reflexivity. Qed.

Example indexOf_substring : JsString.indexOf "ClockPro" "Clock" = 0%Z.
Proof. reflexivity. Qed.

Example indexOf_absent : JsString.indexOf "Clock" "ClockPro" = (-1)%Z.
Proof. reflexivity. Qed.

Example array_indexOf_entry : JsArray.indexOf ["a"; "b"; "c"] "c" = 2%Z.
Proof. reflexivity. Qed.

Example number_of_name : JsNumber.StringToNumber "Clock" = JsNumber.NaN.
Proof. reflexivity. Qed.

Example number_of_empty : JsNumber.StringToNumber "" = JsNumber.Decimal 0 0.
Proof. reflexivity. Qed.

Example number_of_literal : JsNumber.StringToNumber " 1.5e0 " = JsNumber.Decimal 15 (-1).
Proof. reflexivity. Qed.

Example number_of_hex : JsNumber.StringToNumber "0x1f" = JsNumber.Decimal 31 0.
Proof. reflexivity. Qed.

Example one_name_not_below_2 : JsNumber.array_lessThan2 ["Clock"] = false.
Proof. reflexivity. Qed.

Example two_names_not_below_2 : JsNumber.array_lessThan2 ["Clock"; "Watch"] = false.
Proof. reflexivity. Qed.

Example empty_marker_below_2 : JsNumber.array_lessThan2 [""] = true.
Proof. reflexivity. Qed.

Example digit_marker_below_2 : JsNumber.array_lessThan2 ["1"] = true.
Proof. reflexivity. Qed.

Example rounds_up_to_2 : JsNumber.array_lessThan2 ["1.9999999999999999"] = false.
Proof. vm_compute. reflexivity. Qed.

Example inherited_constructor :
  Get (literal [("name", VString "Clock")]) "constructor" = Some (VFunction FObject).
Proof. reflexivity. Qed.

Example own_constructor :
  Get (config_of "Clock" "clock") "constructor" = Some (VFunction (FUser 0)).
Proof. reflexivity. Qed.

Example missing_field : Get (literal []) "cssClass" = Some VUndefined.
Proof. reflexivity. Qed.

(** The scenario of the documentation: register, upgrade all, downgrade
    all, on a page with one element of class [clock]. *)
Example scenario_upgradeAll :
  let s := run match_first [DoRegister (config_of "Clock" "clock"); DoUpgradeAll]
               (initialState (page_of ["clock"])) in
  getAttribute s 0 = Some "Clock"
  ∧ getProperty s 0 "Clock"
    = Some {| element := 0; _ComponentConfig := definition_of "Clock" "clock" |}
  ∧ length (_createdComponents s) = 1.
Proof. repeat split; vm_compute; reflexivity. Qed.

Example scenario_downgradeAll :
  let s := run match_first [DoRegister (config_of "Clock" "clock"); DoUpgradeAll;
                            DoDowngradeAll]
               (initialState (page_of ["clock"])) in
  getAttribute s 0 = Some ""
  ∧ getProperty s 0 "Clock" = None
  ∧ _createdComponents s = [].
Proof. repeat split; vm_compute; reflexivity. Qed.

Example scenario_rejection :
  _register (literal [("name", VString "Clock"); ("constructor", VFunction (FUser 0))])
            (initialState ∅)
  = Throw (Error MESSAGE_ERROR_CONFIG) (initialState ∅).
Proof. reflexivity. Qed.

End Primitives.

(** * Facts about strings and arrays *)

Section StringFacts.

Import JsString.

















Lemma join_empty_inv l :
  Forall (λ x, x ≠ EmptyString) l → join l = EmptyString → l = [].
Proof.
  destruct 1 as [|x l Hx Hl]; [done|].
  destruct l; simpl; [done|]. by destruct x.
Qed.

End StringFacts.

Section ArrayFacts.

Import JsArray.

Lemma indexOf_from_notin l x i : x ∉ l → indexOf_from l x i = (-1)%Z.
Proof.
  revert i. induction l as [|y l IH]; intros i Hx; simpl; [done|].
  apply not_elem_of_cons in Hx as [Hne Hx].
  rewrite bool_decide_eq_false_2 by done. by apply IH.
Qed.

Lemma indexOf_from_middle l1 l2 x i :
  x ∉ l1 → indexOf_from (l1 ++ x :: l2) x i = (i + Z.of_nat (length l1))%Z.
Proof.
  revert i. induction l1 as [|y l1 IH]; intros i Hx; simpl.
  - rewrite bool_decide_eq_true_2 by done. lia.
  - apply not_elem_of_cons in Hx as [Hne Hx].
    rewrite bool_decide_eq_false_2 by done. rewrite IH by done. lia.
Qed.

Lemma indexOf_notin l x : x ∉ l → indexOf l x = (-1)%Z.
Proof. apply indexOf_from_notin. Qed.

Lemma indexOf_in l x : x ∈ l → indexOf l x ≠ (-1)%Z.
Proof.
  intros (l1 & l2 & -> & Hx)%list_elem_of_split_l.
  unfold indexOf. rewrite indexOf_from_middle by done. lia.
Qed.

Lemma indexOf_inv l x : indexOf l x ≠ (-1)%Z → x ∈ l.
Proof.
  intros H. destruct (decide (x ∈ l)) as [|Hn]; [done|].
  by rewrite indexOf_notin in H.
Qed.

Lemma removeFirst_middle l1 l2 x :
  x ∉ l1 → removeFirst x (l1 ++ x :: l2) = l1 ++ l2.
Proof.
  induction l1 as [|y l1 IH]; intros Hx; simpl.
  - by rewrite bool_decide_eq_true_2.
  - apply not_elem_of_cons in Hx as [Hne Hx].
    rewrite bool_decide_eq_false_2 by done. by rewrite IH.
Qed.

(** [splice] at the index found by [indexOf] drops the first entry
    equal to [x]. *)
Lemma splice1_indexOf l x :
  x ∈ l → splice1 l (indexOf l x) = removeFirst x l.
Proof.
  intros (l1 & l2 & -> & Hx)%list_elem_of_split_l.
  unfold splice1, indexOf. rewrite indexOf_from_middle by done.
  rewrite removeFirst_middle by done.
  replace (Z.to_nat (0 + Z.of_nat (length l1))) with (length l1) by lia.
  apply delete_middle.
Qed.

Lemma removeFirst_notin l x : x ∉ l → removeFirst x l = l.
Proof.
  induction l as [|y l IH]; intros Hx; simpl; [done|].
  apply not_elem_of_cons in Hx as [Hne Hx].
  rewrite bool_decide_eq_false_2 by done. by rewrite IH.
Qed.






End ArrayFacts.

(** * Facts about the heap of elements *)

Section HeapFacts.

Lemma elementOf_updateElement s el f el' :
  elementOf (updateElement el f s) el' =
  if decide (el = el') then f (elementOf s el) else elementOf s el'.
Proof.
  unfold elementOf at 1. unfold updateElement. simpl.
  rewrite lookup_insert. by case_decide.
Qed.

Lemma elementOf_setCreated l s el : elementOf (setCreated l s) el = elementOf s el.
Proof. done. Qed.

Lemma elementOf_setRegistered l s el : elementOf (setRegistered l s) el = elementOf s el.
Proof. done. Qed.


End HeapFacts.

Ltac heap_simpl :=
  repeat (rewrite elementOf_updateElement || rewrite elementOf_setCreated
          || rewrite elementOf_setRegistered);
  rewrite ?decide_True, ?decide_False by congruence.

(** * What one upgrade and one downgrade do to the state *)

Section Effects.

Lemma upgrade_skip_class el c s :
  cssClass c ∉ classList (elementOf s el) → _upgradeElementInternal el c s = s.
Proof.
  intros H. unfold _upgradeElementInternal.
  by rewrite bool_decide_eq_false_2.
Qed.

Lemma upgrade_skip_upgraded el c s :
  _isUpgradedElement s el (name c) = true → _upgradeElementInternal el c s = s.
Proof.
  intros H. unfold _upgradeElementInternal. rewrite H.
  by destruct (negb _).
Qed.

Lemma upgrade_runs el c s :
  cssClass c ∈ classList (elementOf s el) →
  _isUpgradedElement s el (name c) = false →
  let i := {| element := el; _ComponentConfig := c |} in
  let s' := _upgradeElementInternal el c s in
  _registeredComponents s' = _registeredComponents s
  ∧ _createdComponents s' = _createdComponents s ++ [i]
  ∧ elementOf s' el =
      {| classList := classList (elementOf s el);
         dataset_upgraded := Some (JsString.join (_getComponentList s el ++ [name c]));
         expando := <[name c := i]> (expando (elementOf s el)) |}
  ∧ ∀ el', el' ≠ el → elementOf s' el' = elementOf s el'.
Proof.
  intros Hc Hu. unfold _upgradeElementInternal.
  rewrite bool_decide_eq_true_2 by done. rewrite Hu. simpl.
  repeat split.
  - unfold setAttribute, setProperty.
    by heap_simpl.
  - intros el' Hne. assert (el ≠ el') by congruence. unfold setAttribute, setProperty.
    by heap_simpl.
Qed.

Lemma downgrade_runs el n m s :
  getAttribute s el = Some m →
  n ∈ JsString.split m →
  ∃ s', _downgradeElementInternal el n s = Normal s'
    ∧ _registeredComponents s' = _registeredComponents s
    ∧ _createdComponents s' = removeCreated el n (_createdComponents s)
    ∧ elementOf s' el =
        {| classList := classList (elementOf s el);
           dataset_upgraded := Some (JsString.join (removeFirst n (JsString.split m)));
           expando := delete n (expando (elementOf s el)) |}
    ∧ ∀ el', el' ≠ el → elementOf s' el' = elementOf s el'.
Proof.
  intros Hm Hn. unfold _downgradeElementInternal. rewrite Hm.
  destruct (Z.eqb_spec (JsArray.indexOf (JsString.split m) n) (-1)) as [E|E].
  { exfalso. by apply (indexOf_in _ _ Hn). }
  eexists. split; [done|]. rewrite splice1_indexOf by done.
  repeat split.
  - unfold deleteProperty, setAttribute.
    by heap_simpl.
  - intros el' Hne. assert (el ≠ el') by congruence. unfold deleteProperty, setAttribute.
    by heap_simpl.
Qed.

Lemma downgrade_absent el n s :
  getAttribute s el = None → _downgradeElementInternal el n s = Throw TypeError s.
Proof. intros H. unfold _downgradeElementInternal. by rewrite H. Qed.

Lemma downgrade_skip el n m s :
  getAttribute s el = Some m → n ∉ JsString.split m →
  _downgradeElementInternal el n s = Normal s.
Proof.
  intros Hm Hn. unfold _downgradeElementInternal. rewrite Hm.
  by rewrite indexOf_notin.
Qed.

End Effects.

(** * The names recorded for an element *)

Section Names.

Lemma namesOf_nil el : namesOf [] el = [].
Proof. done. Qed.

Lemma namesOf_cons i l el :
  namesOf (i :: l) el =
  if decide (element i = el) then name (_ComponentConfig i) :: namesOf l el
  else namesOf l el.
Proof. unfold namesOf. rewrite filter_cons. by case_decide. Qed.

Lemma namesOf_app l1 l2 el : namesOf (l1 ++ l2) el = namesOf l1 el ++ namesOf l2 el.
Proof. unfold namesOf. by rewrite filter_app, fmap_app. Qed.






Lemma length_removeCreated el n l :
  length (removeCreated el n l) ≤ length l.
Proof.
  induction l as [|i l IH]; simpl; [done|].
  destruct (_ && _); simpl; lia.
Qed.




(** The inner loop of [_getComponentList]. *)
Local Abbreviation pushNames el :=
  (λ (componentList : list string) (component : Instance),
     if (JsArray.indexOf componentList (name (_ComponentConfig component)) =? -1)%Z
        && bool_decide (element component = el)
     then componentList ++ [name (_ComponentConfig component)]
     else componentList).


Lemma pushNames_known l acc el :
  (∀ n, n ∈ namesOf l el → n ∈ acc) → foldl (pushNames el) acc l = acc.
Proof.
  induction l as [|i l IH]; intros Hin; simpl; [done|].
  rewrite namesOf_cons in Hin. destruct (decide (element i = el)) as [He|He].
  - destruct (Z.eqb_spec (JsArray.indexOf acc (name (_ComponentConfig i))) (-1)) as [E|E].
    + exfalso. eapply indexOf_in; [|exact E]. apply Hin. left.
    + simpl. apply IH. intros n Hn. apply Hin. by right.
  - rewrite (bool_decide_eq_false_2 _ He), andb_false_r. by apply IH.
Qed.


End Names.

(** * The invariant and the element-level operations *)

Section Invariant.







End Invariant.

(** * Loops *)

Section Loops.

Lemma forEach_preserves {A} (P : State → Prop) (body : A → State → Completion) l s :
  Forall (λ x, ∀ s, P s → P (state_of (body x s))) l →
  P s → P (state_of (forEach body l s)).
Proof.
  intros Hl. revert s. induction Hl as [|x l Hx Hl IH]; intros s Hs; [done|].
  simpl. specialize (Hx s Hs). destruct (body x s) as [s1|e s1]; simpl in *; auto.
Qed.

Lemma forEach_preserves_all {A} (P : State → Prop) (body : A → State → Completion) l s :
  (∀ x s, P s → P (state_of (body x s))) →
  P s → P (state_of (forEach body l s)).
Proof. intros H. apply forEach_preserves, Forall_forall. auto. Qed.

Lemma foldl_preserves {A} (P : State → Prop) (step : State → A → State) l s :
  (∀ x s, P s → P (step s x)) → P s → P (foldl step s l).
Proof. intros H. revert s. induction l; simpl; auto. Qed.

(** The uniqueness check of [_register] changes nothing: it throws
    exactly when the class is taken. *)
Lemma register_check l c s :
  forEach (λ registered s,
             if bool_decide (cssClass registered = c)
             then Throw (Error (MESSAGE_ERROR_CLASS c)) s
             else Normal s) l s
  = if bool_decide (c ∈ cssClass <$> l)
    then Throw (Error (MESSAGE_ERROR_CLASS c)) s else Normal s.
Proof.
  induction l as [|r l IH]; [done|]. simpl.
  destruct (decide (cssClass r = c)) as [E|E].
  - rewrite (bool_decide_eq_true_2 _ E). simpl.
    rewrite bool_decide_eq_true_2; [done|]. apply elem_of_cons. by left.
  - rewrite (bool_decide_eq_false_2 _ E). simpl. rewrite IH.
    destruct (decide (c ∈ cssClass <$> l)) as [Hin|Hin].
    + rewrite !bool_decide_eq_true_2; [done|by right|done].
    + rewrite !bool_decide_eq_false_2; [done| |done].
      intros [?|?]%elem_of_cons; [congruence|done].
Qed.

Lemma findByClass_Some l c r :
  findByClass l c = Some r → r ∈ l ∧ cssClass r = c.
Proof.
  induction l as [|x l IH]; simpl; [done|].
  case_bool_decide as E.
  - intros [= ->]. split; [left|done].
  - intros [Hin Hc]%IH. split; [by right|done].
Qed.

Lemma findByClass_None l c :
  findByClass l c = None → c ∉ cssClass <$> l.
Proof.
  induction l as [|x l IH]; simpl; [intros _; apply not_elem_of_nil|].
  case_bool_decide as E; [done|].
  intros Hn%IH. intros [?|?]%elem_of_cons; [congruence|done].
Qed.

End Loops.

(** * Registration *)

Section Registration.

Lemma isEmpty_false n : JsString.isEmpty n = false ↔ n ≠ EmptyString.
Proof. by destruct n. Qed.

(** A value that passes the checks of [_register] is registered
    unless its class is taken. *)
Lemma register_definition config d s :
  isDefinition config d →
  _register config s =
  if bool_decide (cssClass d ∈ cssClass <$> _registeredComponents s)
  then Throw (Error (MESSAGE_ERROR_CLASS (cssClass d))) s
  else Normal (setRegistered (_registeredComponents s ++ [d]) s).
Proof.
  intros (Ht & Hc & Hn & Hne & Hk & Hke). unfold _register.
  rewrite Ht, Hc, Hn, Hk. simpl.
  rewrite (proj2 (isEmpty_false _) Hne), (proj2 (isEmpty_false _) Hke).
  rewrite register_check. case_bool_decide; simpl; [done|].
  by destruct d.
Qed.

(** Every outcome of [_register]: an exception with the state
    untouched, or the definition read from the value appended. *)
Lemma register_outcome config s :
  (∃ e, _register config s = Throw e s)
  ∨ (∃ d, isDefinition config d
        ∧ (cssClass d ∉ cssClass <$> _registeredComponents s)
        ∧ _register config s = Normal (setRegistered (_registeredComponents s ++ [d]) s)).
Proof.
  unfold _register.
  destruct (bool_decide (typeof config = "undefined")
            || negb (bool_decide (typeof config = "object"))) eqn:Ht; [eauto|].
  apply orb_false_elim in Ht as [_ Ht]. apply negb_false_iff in Ht.
  apply bool_decide_eq_true in Ht.
  destruct (Get config "constructor") as [[| | | | |ctor|]|] eqn:Hc; eauto.
  destruct (Get config "name") as [[| | | |n| |]|] eqn:Hn; eauto.
  destruct (JsString.isEmpty n) eqn:Hne; eauto.
  destruct (Get config "cssClass") as [[| | | |k| |]|] eqn:Hk; eauto.
  destruct (JsString.isEmpty k) eqn:Hke; eauto.
  rewrite register_check. case_bool_decide as Hin; simpl; eauto.
  right. exists {| constructor := ctor; name := n; cssClass := k |}.
  apply isEmpty_false in Hne, Hke. repeat split; done.
Qed.



(** Reading a property of anything but [null] and [undefined] yields
    a value. *)
Lemma Get_defined v key : v ≠ VUndefined → v ≠ VNull → is_Some (Get v key).
Proof.
  induction v as [| | | | | |own proto IH]; intros H1 H2; try done;
    try (by eexists).
  simpl. destruct (assoc own key); [by eexists|].
  destruct proto; try (by eexists). by apply IH.
Qed.

(** A value other than [null] that is no definition is rejected with
    the configuration error, and the state stays as it was. *)
Lemma register_rejects config s :
  config ≠ VNull → (∀ d, ¬ isDefinition config d) →
  _register config s = Throw (Error MESSAGE_ERROR_CONFIG) s.
Proof.
  intros Hnull Hno. unfold _register.
  destruct (bool_decide (typeof config = "undefined")
            || negb (bool_decide (typeof config = "object"))) eqn:Ht; [done|].
  apply orb_false_elim in Ht as [Hu Ht]. apply negb_false_iff in Ht.
  apply bool_decide_eq_true in Ht. apply bool_decide_eq_false in Hu.
  assert (config ≠ VUndefined) as Hundef by (by intros ->).
  destruct (Get_defined config "constructor" Hundef Hnull) as [v1 Hc]. rewrite Hc.
  destruct (Get_defined config "name" Hundef Hnull) as [v2 Hn]. rewrite Hn.
  destruct (Get_defined config "cssClass" Hundef Hnull) as [v3 Hk]. rewrite Hk.
  destruct v1 as [| | | | |ctor|]; try done.
  destruct v2 as [| | | |n| |]; try done.
  destruct (JsString.isEmpty n) eqn:Hne; [done|].
  destruct v3 as [| | | |k| |]; try done.
  destruct (JsString.isEmpty k) eqn:Hke; [done|].
  destruct (Hno {| constructor := ctor; name := n; cssClass := k |}).
  apply isEmpty_false in Hne, Hke. repeat split; done.
Qed.

End Registration.

(** * The invariant and the public interface *)

Section PublicInvariant.

Variable querySelectorAll : string → State → option (list ElemId).














End PublicInvariant.

(** * Downgrades never take the attribute away *)

Section MarkerKept.

Variable querySelectorAll : string → State → option (list ElemId).

Local Abbreviation marked el := (λ s : State, is_Some (getAttribute s el)).






End MarkerKept.

(** * Consequences of the invariant *)

Section Consequences.






End Consequences.

(** * Idempotent upgrade *)

Section IdempotentUpgrade.




End IdempotentUpgrade.

(** * Upgrade, then downgrade *)

Section RoundTrip.




End RoundTrip.

(** * Registration *)

Section RegistrationErrors.

(** C3: whatever the state of the registry, when two definitions
    share their cssClass, registering the second after the first fails
    with the error that names the class, and leaves the state, hence
    the registration table, as it was. *)
Theorem register_same_class_twice s config1 config2 d1 d2 :
  isDefinition config1 d1 →
  isDefinition config2 d2 →
  cssClass d1 = cssClass d2 →
  let s1 := state_of (_register config1 s) in
  _register config2 s1 = Throw (Error (MESSAGE_ERROR_CLASS (cssClass d2))) s1
  ∧ _registeredComponents (state_of (_register config2 s1)) = _registeredComponents s1.
Proof.
  intros H1 H2 Hc s1.
  assert (cssClass d2 ∈ cssClass <$> _registeredComponents s1) as Hin.
  { subst s1. rewrite (register_definition config1 d1) by done.
    case_bool_decide as E; simpl; [by rewrite <- Hc|].
    rewrite fmap_app. apply elem_of_app. right. rewrite <- Hc. left. }
  rewrite (register_definition config2 d2) by done.
  rewrite bool_decide_eq_true_2 by done. done.
Qed.

(** C3 at a concrete input: [Watch] asks for the class of [Clock]. *)
Lemma register_same_class_twice_witness :
  let s1 := state_of (_register (config_of "Clock" "clock") (initialState ∅)) in
  isDefinition (config_of "Clock" "clock") (definition_of "Clock" "clock")
  ∧ isDefinition (config_of "Watch" "clock") (definition_of "Watch" "clock")
  ∧ _registeredComponents s1 = [definition_of "Clock" "clock"]
  ∧ _register (config_of "Watch" "clock") s1
    = Throw (Error (MESSAGE_ERROR_CLASS "clock")) s1
  ∧ _registeredComponents (state_of (_register (config_of "Watch" "clock") s1))
    = _registeredComponents s1.
Proof.
  assert (isDefinition (config_of "Clock" "clock") (definition_of "Clock" "clock")) as H1
    by (repeat split; done).
  assert (isDefinition (config_of "Watch" "clock") (definition_of "Watch" "clock")) as H2
    by (repeat split; done).
  split; [exact H1|]. split; [exact H2|]. split; [reflexivity|].
  exact (register_same_class_twice (initialState ∅) _ _ _ _ H1 H2 eq_refl).
Defined.

(** C7 fails on the code: an object literal without a [constructor]
    field of its own inherits [Object.prototype.constructor], which is
    a function, so the check passes and the definition is registered
    with [Object] as its constructor. *)
Theorem register_accepts_inherited_constructor h :
  _register (literal [("name", VString "Clock"); ("cssClass", VString "clock")])
            (initialState h)
  = Normal {| _registeredComponents :=
                [{| constructor := FObject; name := "Clock"; cssClass := "clock" |}];
              _createdComponents := [];
              heap := h |}.
Proof. reflexivity. Qed.

End RegistrationErrors.

(** * Downgrades *)

Section DowngradeBehaviour.

Variable querySelectorAll : string → State → option (list ElemId).

(** C4 fails on the code: on an element without the marker attribute
    [getAttribute] yields [null], and [_downgradeElementInternal] calls
    [split] on it, which raises a TypeError; the public
    [downgradeElement] with a registered class reaches that call. *)
Theorem downgrade_absent_marker_throws s el n c r :
  getAttribute s el = None →
  c ≠ EmptyString →
  findByClass (_registeredComponents s) c = Some r →
  _downgradeElementInternal el n s = Throw TypeError s
  ∧ _downgradeElement (TElement el) (VString c) s = Throw TypeError s.
Proof.
  intros Hm Hc Hr. split; [by apply downgrade_absent|].
  unfold _downgradeElement. simpl.
  rewrite (proj2 (isEmpty_false c) Hc), Hr. by apply downgrade_absent.
Qed.

(** C4 at the failing input: [Clock] is registered and the element of
    class [clock] was never upgraded. *)
Lemma downgrade_absent_marker_throws_witness :
  let s := state_of (_register (config_of "Clock" "clock") (initialState (page_of ["clock"]))) in
  getAttribute s 0 = None
  ∧ findByClass (_registeredComponents s) "clock" = Some (definition_of "Clock" "clock")
  ∧ _downgradeElementInternal 0 "Clock" s = Throw TypeError s
  ∧ _downgradeElement (TElement 0) (VString "clock") s = Throw TypeError s.
Proof.
  intros s. split; [reflexivity|]. split; [reflexivity|].
  apply (downgrade_absent_marker_throws s 0 "Clock" "clock" (definition_of "Clock" "clock")).
  - reflexivity.
  - discriminate.
  - reflexivity.
Defined.

(** C5 fails on the code: [_downgradeElement] calls
    [element.getAttribute] before it tests [instanceof HTMLElement],
    so [null], a number and a plain object all raise a TypeError. *)
Theorem downgradeElement_non_element_throws s optionalCssClass :
  _downgradeElement (TValue VNull) optionalCssClass s = Throw TypeError s
  ∧ _downgradeElement (TValue (VNumber 5)) optionalCssClass s = Throw TypeError s
  ∧ _downgradeElement (TValue (literal [])) optionalCssClass s = Throw TypeError s.
Proof. repeat split; reflexivity. Qed.

(** C6 fails on the code: the guard compares the array itself with 2,
    and an array with the single entry ["Clock"] converts to NaN, so the
    guard does not fire and the element is downgraded. *)
Theorem downgradeElement_single_entry_downgrades :
  let s := run no_match [DoRegister (config_of "Clock" "clock");
                         DoUpgradeElement (TElement 0) VUndefined]
               (initialState (page_of ["clock"])) in
  markerList s 0 = ["Clock"]
  ∧ _createdComponents s = [{| element := 0; _ComponentConfig := definition_of "Clock" "clock" |}]
  ∧ ∃ s', _downgradeElement (TElement 0) VUndefined s = Normal s'
        ∧ _createdComponents s' = []
        ∧ getAttribute s' 0 = Some EmptyString.
Proof.
  repeat split. eexists. split; [vm_compute; reflexivity|]. split; reflexivity.
Qed.

(** C8 fails on the code: with the classes processed in the order
    [a], [b] and the names [ClockPro], [Clock], the marker ["ClockPro"]
    already contains ["Clock"] as a substring, so the second definition
    is taken for upgraded and skipped. *)
Theorem upgradeElement_skips_substring_name :
  let s := run no_match [DoRegister (config_of "ClockPro" "a");
                         DoRegister (config_of "Clock" "b")]
               (initialState (page_of ["a"; "b"])) in
  _registeredComponents s = [definition_of "ClockPro" "a"; definition_of "Clock" "b"]
  ∧ ∃ s', _upgradeElement (TElement 0) VUndefined s = Normal s'
        ∧ _createdComponents s'
          = [{| element := 0; _ComponentConfig := definition_of "ClockPro" "a" |}]
        ∧ markerList s' 0 = ["ClockPro"].
Proof.
  split; [reflexivity|].
  eexists. split; [vm_compute; reflexivity|]. split; reflexivity.
Qed.




End DowngradeBehaviour.

(** * Neighbouring behaviours on concrete inputs *)

Section Neighbours.

(** Two upgrades of a pair whose name is contained in a recorded name
    create nothing. *)
Example upgrade_twice_shadowed :
  let c := definition_of "Clock" "b" in
  let s := run no_match [DoRegister (config_of "ClockPro" "a");
                         DoRegister (config_of "Clock" "b");
                         DoUpgradeElement (TElement 0) (VString "a")]
               (initialState (page_of ["a"; "b"])) in
  getAttribute s 0 = Some "ClockPro"
  ∧ instancesOf (_upgradeElementInternal 0 c (_upgradeElementInternal 0 c s)) 0 "Clock" = [].
Proof. split; vm_compute; reflexivity. Qed.

(** Two upgrades of a pair whose name contains a comma create one
    instance, and no entry of the marker list is the name. *)
Example upgrade_twice_comma :
  let c := definition_of "a,b" "k" in
  let s := run no_match [DoRegister (config_of "a,b" "k")] (initialState (page_of ["k"])) in
  let s2 := _upgradeElementInternal 0 c (_upgradeElementInternal 0 c s) in
  length (instancesOf s2 0 "a,b") = 1
  ∧ markerList s2 0 = ["a"; "b"]
  ∧ occurrences "a,b" (markerList s2 0) = 0.
Proof. repeat split; vm_compute; reflexivity. Qed.

(** With the classes of the element in the other order, [Clock] is
    upgraded before [ClockPro] and both components are created. *)
Example upgradeElement_other_order :
  let s := run no_match [DoRegister (config_of "ClockPro" "a");
                         DoRegister (config_of "Clock" "b");
                         DoUpgradeElement (TElement 0) VUndefined]
               (initialState (page_of ["b"; "a"])) in
  markerList s 0 = ["Clock"; "ClockPro"] ∧ length (_createdComponents s) = 2.
Proof. split; vm_compute; reflexivity. Qed.

(** Two names that do not contain each other: both components are
    created, in the order of the classes. *)
Example upgradeElement_two_components :
  let s := run no_match [DoRegister (config_of "Clock" "a");
                         DoRegister (config_of "Watch" "b");
                         DoUpgradeElement (TElement 0) VUndefined]
               (initialState (page_of ["b"; "a"])) in
  markerList s 0 = ["Watch"; "Clock"] ∧ length (_createdComponents s) = 2.
Proof. split; vm_compute; reflexivity. Qed.

(** Without a class filter, [downgradeElement] leaves an element alone
    when its marker is absent or empty. *)
Example downgradeElement_absent_marker :
  let s := initialState (page_of ["clock"]) in
  _downgradeElement (TElement 0) VUndefined s = Normal s.
Proof. reflexivity. Qed.

Example downgradeElement_empty_marker :
  let s := run no_match [DoRegister (config_of "Clock" "clock");
                         DoUpgradeElement (TElement 0) VUndefined;
                         DoDowngradeElement (TElement 0) (VString "clock")]
               (initialState (page_of ["clock"])) in
  getAttribute s 0 = Some "" ∧ _downgradeElement (TElement 0) VUndefined s = Normal s.
Proof. split; vm_compute; reflexivity. Qed.

(** Two recorded names are both downgraded. *)
Example downgradeElement_two_entries :
  let s := run no_match [DoRegister (config_of "Clock" "a");
                         DoRegister (config_of "Watch" "b");
                         DoUpgradeElement (TElement 0) VUndefined;
                         DoDowngradeElement (TElement 0) VUndefined]
               (initialState (page_of ["a"; "b"])) in
  getAttribute s 0 = Some "" ∧ _createdComponents s = [].
Proof. split; vm_compute; reflexivity. Qed.

(** A value that is no element but has a [getAttribute] method passes
    the first line of [_downgradeElement] and is then ignored; and
    [upgradeElement] ignores every value that is no element. *)
Example downgradeElement_duck s optionalCssClass :
  _downgradeElement (TValue (literal [("getAttribute", VFunction (FUser 1))]))
                    optionalCssClass s
  = Normal s.
Proof. reflexivity. Qed.

Example upgradeElement_non_element v optionalCssClass s :
  _upgradeElement (TValue v) optionalCssClass s = Normal s.
Proof. reflexivity. Qed.

(** [register(null)] fails on the first property read. *)
Example register_null s : _register VNull s = Throw TypeError s.
Proof. reflexivity. Qed.

Example register_undefined s :
  _register VUndefined s = Throw (Error MESSAGE_ERROR_CONFIG) s.
Proof. reflexivity. Qed.

Example register_empty_class s :
  _register (config_of "Clock" "") s = Throw (Error MESSAGE_ERROR_CONFIG) s.
Proof. reflexivity. Qed.

End Neighbours.



(** * Operations as sequences of element-level steps *)

Section Steps.

Variable querySelectorAll : string → State → option (list ElemId).

Lemma upgrade_registered el c s :
  _registeredComponents (_upgradeElementInternal el c s) = _registeredComponents s.
Proof.
  destruct (decide (cssClass c ∈ classList (elementOf s el))) as [Hc|Hc];
    [|by rewrite upgrade_skip_class].
  destruct (_isUpgradedElement s el (name c)) eqn:Hu;
    [by rewrite upgrade_skip_upgraded|].
  by destruct (upgrade_runs el c s Hc Hu) as (-> & _).
Qed.

Lemma downgrade_registered el n s :
  _registeredComponents (state_of (_downgradeElementInternal el n s))
  = _registeredComponents s.
Proof.
  destruct (getAttribute s el) as [m|] eqn:Hm; [|by rewrite downgrade_absent].
  destruct (decide (n ∈ JsString.split m)) as [Hn|Hn];
    [|by rewrite (downgrade_skip _ _ m)].
  by destruct (downgrade_runs el n m s Hm Hn) as (s' & -> & Hr & _).
Qed.

(** A property kept by every element-level upgrade with a registered
    definition is kept by the three upgrade operations. *)
Lemma upgrade_ops_keep (P : State → Prop) :
  (∀ el c s, P s → c ∈ _registeredComponents s → P (_upgradeElementInternal el c s)) →
  (∀ target optionalCssClass, keeps P (_upgradeElement target optionalCssClass))
  ∧ (∀ c, keeps P (_upgrade querySelectorAll c))
  ∧ keeps P (_upgradeAll querySelectorAll).
Proof.
  intros Hup.
  assert (∀ R el c s, (P s ∧ _registeredComponents s = R) → c ∈ R →
            P (_upgradeElementInternal el c s)
            ∧ _registeredComponents (_upgradeElementInternal el c s) = R) as Hstep.
  { intros R el c s [HP <-] Hc. split; [by apply Hup|apply upgrade_registered]. }
  assert (∀ R r s, (P s ∧ _registeredComponents s = R) → r ∈ R →
            P (state_of (_upgradeInternal querySelectorAll r s))
            ∧ _registeredComponents (state_of (_upgradeInternal querySelectorAll r s)) = R)
    as Hint.
  { intros R r s HQ Hr. unfold _upgradeInternal.
    destruct (querySelectorAll _ s) as [elements|]; [|done]. simpl.
    apply (foldl_preserves (λ s, P s ∧ _registeredComponents s = R)); [|done].
    intros el s' HQ'. by apply Hstep. }
  repeat split.
  - intros target optionalCssClass s HP. unfold _upgradeElement.
    destruct target as [el|v]; [|done].
    destruct (asNonEmptyString optionalCssClass) as [c|].
    + unfold _getRegisteredByClass.
      destruct (findByClass _ c) as [r|] eqn:E; [|done].
      apply findByClass_Some in E as [Hin _]. simpl. by apply Hup.
    + apply (forEach_preserves_all
               (λ s', P s' ∧ _registeredComponents s' = _registeredComponents s));
        [|done].
      intros c s' [HP' HR]. unfold _getRegisteredByClass.
      destruct (findByClass _ c) as [r|] eqn:E; [|done].
      apply findByClass_Some in E as [Hin _]. simpl.
      apply Hstep; [done|]. by rewrite <- HR.
  - intros c s HP. unfold _upgrade.
    apply (forEach_preserves
             (λ s', P s' ∧ _registeredComponents s' = _registeredComponents s));
      [|done].
    apply Forall_forall. intros r Hr s' HQ.
    destruct (strictEqualsString _ _); [|done]. by apply Hint.
  - intros s HP. unfold _upgradeAll.
    apply (forEach_preserves
             (λ s', P s' ∧ _registeredComponents s' = _registeredComponents s));
      [|done].
    apply Forall_forall. intros r Hr s' HQ. by apply Hint.
Qed.

(** A property kept by every element-level downgrade is kept by the
    three downgrade operations. *)
Lemma downgrade_ops_keep (P : State → Prop) :
  (∀ el n, keeps P (_downgradeElementInternal el n)) →
  (∀ target optionalCssClass, keeps P (_downgradeElement target optionalCssClass))
  ∧ (∀ c, keeps P (_downgrade querySelectorAll c))
  ∧ keeps P _downgradeAll.
Proof.
  intros Hdown. repeat split.
  - intros target optionalCssClass s HP. unfold _downgradeElement.
    destruct target as [el|v].
    + destruct (asNonEmptyString optionalCssClass) as [c|].
      * destruct (findByClass _ c) as [r|]; [|done]. by apply Hdown.
      * destruct (getAttribute s el) as [str|]; [|done].
        destruct (JsNumber.array_lessThan2 _); [done|].
        apply (forEach_preserves_all P); [|done].
        intros n s' HP'. by apply Hdown.
    + by destruct (hasMethod v _).
  - intros c s HP. unfold _downgrade.
    destruct (asNonEmptyString c) as [k|]; [|done].
    destruct (querySelectorAll _ s) as [elements|]; [|done].
    apply (forEach_preserves_all P); [|done]. intros el s' HP'.
    destruct (name <$> findByClass _ k) as [n|].
    + by apply Hdown.
    + by destruct (getAttribute s' el).
  - intros s HP. unfold _downgradeAll.
    generalize (length (_createdComponents s)). intros n. revert s HP.
    induction n as [|n IH]; intros s HP; simpl; [done|].
    destruct (_createdComponents s) as [|i l]; [done|].
    pose proof (Hdown (element i) (name (_ComponentConfig i)) s HP) as H.
    destruct (_downgradeElementInternal _ _ s) as [s1|e s1]; simpl in *; [|done].
    by apply IH.
Qed.

(** A property kept by the element-level steps and by a successful
    registration is kept by every call, hence by every script. *)
Lemma call_keeps (P : State → Prop) :
  (∀ el c s, P s → c ∈ _registeredComponents s → P (_upgradeElementInternal el c s)) →
  (∀ el n, keeps P (_downgradeElementInternal el n)) →
  (∀ d s, P s → cssClass d ∉ (cssClass <$> _registeredComponents s) →
          P (setRegistered (_registeredComponents s ++ [d]) s)) →
  ∀ c, keeps P (call querySelectorAll c).
Proof.
  intros Hup Hdown Hreg c s HP.
  destruct (upgrade_ops_keep P Hup) as (U1 & U2 & U3).
  destruct (downgrade_ops_keep P Hdown) as (D1 & D2 & D3).
  destruct c; simpl.
  - destruct (register_outcome config s) as [[e ->]|(d & _ & Hd & ->)]; [done|].
    simpl. by apply Hreg.
  - by apply U1.
  - by apply U2.
  - by apply U3.
  - by apply D1.
  - by apply D2.
  - by apply D3.
Qed.

Lemma run_keeps (P : State → Prop) script s :
  (∀ c, keeps P (call querySelectorAll c)) →
  P s → P (run querySelectorAll script s).
Proof.
  intros Hc. revert s. induction script as [|c script IH]; intros s HP; [done|].
  simpl. apply IH. by apply Hc.
Qed.

End Steps.

(** * The registration table *)

Section RegistrationTable.

Variable querySelectorAll : string → State → option (list ElemId).




(** X1: in every state that a script of calls reaches from the
    initial state, no two entries of the registration table have the
    same cssClass. *)
Theorem registered_classes_distinct h script :
  NoDup (cssClass <$> _registeredComponents (run querySelectorAll script (initialState h))).
Proof.
  apply (run_keeps querySelectorAll
           (λ s, NoDup (cssClass <$> _registeredComponents s))); [|constructor].
  apply call_keeps.
  - intros el c s HP _. by rewrite upgrade_registered.
  - intros el n s HP. by rewrite downgrade_registered.
  - intros d s HP Hd. simpl. rewrite fmap_app. apply NoDup_app.
    repeat split; [done| |apply NoDup_singleton].
    intros x Hx ->%list_elem_of_singleton. done.
Qed.



(** X3: a value other than [null] that is no object, or whose
    [constructor] is no function, or whose [name] or [cssClass] is not a
    non-empty string, is refused with the configuration error, and the
    state stays as it was. *)
Theorem register_invalid_config config s :
  config ≠ VNull →
  typeof config ≠ "object"
  ∨ (∀ f, Get config "constructor" ≠ Some (VFunction f))
  ∨ (∀ n, n ≠ EmptyString → Get config "name" ≠ Some (VString n))
  ∨ (∀ k, k ≠ EmptyString → Get config "cssClass" ≠ Some (VString k)) →
  _register config s = Throw (Error MESSAGE_ERROR_CONFIG) s.
Proof.
  intros Hnull Hbad. apply register_rejects; [done|].
  intros d (Ht & Hc & Hn & Hne & Hk & Hke).
  destruct Hbad as [H|[H|[H|H]]].
  - done.
  - by apply (H (constructor d)).
  - by apply (H (name d)).
  - by apply (H (cssClass d)).
Qed.

Lemma register_invalid_config_witness :
  let config := literal [("name", VString "Clock");
                         ("constructor", VFunction (FUser 0))] in
  config ≠ VNull
  ∧ (∀ k, k ≠ EmptyString → Get config "cssClass" ≠ Some (VString k))
  ∧ _register config (initialState ∅)
    = Throw (Error MESSAGE_ERROR_CONFIG) (initialState ∅).
Proof.
  intros config.
  assert (config ≠ VNull) as Hnull by discriminate.
  assert (∀ k, k ≠ EmptyString → Get config "cssClass" ≠ Some (VString k)) as Hk
    by (intros k _; discriminate).
  split; [exact Hnull|]. split; [exact Hk|].
  apply (register_invalid_config config (initialState ∅) Hnull).
  right. right. right. exact Hk.
Defined.

End RegistrationTable.

(** * The component list and the marker *)

Section ComponentList.

Local Abbreviation pushNames el :=
  (λ (componentList : list string) (component : Instance),
     if (JsArray.indexOf componentList (name (_ComponentConfig component)) =? -1)%Z
        && bool_decide (element component = el)
     then componentList ++ [name (_ComponentConfig component)]
     else componentList).

Lemma pushNames_spec l acc el :
  NoDup acc →
  NoDup (foldl (pushNames el) acc l)
  ∧ ∀ n, n ∈ foldl (pushNames el) acc l ↔ n ∈ acc ∨ n ∈ namesOf l el.
Proof.
  revert acc. induction l as [|i l IH]; intros acc Hnd; simpl.
  - split; [done|]. intros n. rewrite namesOf_nil, elem_of_nil. tauto.
  - rewrite namesOf_cons.
    destruct (Z.eqb_spec (JsArray.indexOf acc (name (_ComponentConfig i))) (-1)) as [E|E];
      destruct (decide (element i = el)) as [He|He];
      rewrite ?(bool_decide_eq_true_2 _ He), ?(bool_decide_eq_false_2 _ He); simpl.
    + assert (name (_ComponentConfig i) ∉ acc) as Hfresh.
      { intros Hin. by apply indexOf_in in Hin. }
      destruct (IH (acc ++ [name (_ComponentConfig i)])) as [H1 H2].
      { apply NoDup_app. repeat split; [done| |apply NoDup_singleton].
        intros x Hx ->%list_elem_of_singleton. done. }
      split; [done|]. intros n. rewrite H2, elem_of_app, !elem_of_cons, elem_of_nil.
      tauto.
    + by apply IH.
    + destruct (IH acc Hnd) as [H1 H2]. split; [done|].
      intros n. rewrite H2, elem_of_cons. apply indexOf_inv in E.
      split; [tauto|]. intros [?|[->|?]]; tauto.
    + by apply IH.
Qed.

(** X4: on an element without any class [_getComponentList] is empty;
    on an element with a class it lists, without repetition, exactly the
    names of the instances that the table holds for the element. *)
Theorem getComponentList_spec s el :
  (classList (elementOf s el) = [] → _getComponentList s el = [])
  ∧ (classList (elementOf s el) ≠ [] →
     NoDup (_getComponentList s el)
     ∧ ∀ n, n ∈ _getComponentList s el ↔ n ∈ namesOn s el).
Proof.
  unfold _getComponentList, namesOn. split.
  - by intros ->.
  - destruct (classList (elementOf s el)) as [|c cl]; [done|]. intros _. simpl.
    destruct (pushNames_spec (_createdComponents s) [] el) as [H1 H2]; [constructor|].
    assert (foldl (λ componentList _, foldl (pushNames el) componentList
                                         (_createdComponents s))
                  (foldl (pushNames el) [] (_createdComponents s)) cl
            = foldl (pushNames el) [] (_createdComponents s)) as ->.
    { induction cl as [|c' cl IH]; simpl; [done|].
      rewrite pushNames_known; [done|]. intros n Hn. apply H2. by right. }
    split; [done|]. intros n. rewrite H2, elem_of_nil. tauto.
Qed.

Lemma getComponentList_spec_witness :
  let s := run no_match [DoRegister (config_of "Clock" "a");
                         DoRegister (config_of "Watch" "b");
                         DoUpgradeElement (TElement 0) VUndefined]
               (initialState (page_of ["a"; "b"])) in
  classList (elementOf s 0) ≠ []
  ∧ namesOn s 0 = ["Clock"; "Watch"]
  ∧ NoDup (_getComponentList s 0)
  ∧ ∀ n, n ∈ _getComponentList s 0 ↔ n ∈ namesOn s 0.
Proof.
  intros s.
  assert (classList (elementOf s 0) ≠ []) as Hc by discriminate.
  split; [exact Hc|]. split; [reflexivity|].
  exact (proj2 (getComponentList_spec s 0) Hc).
Defined.




End ComponentList.

(** * Invariants of scripts *)

Section ScriptInvariants.

Variable querySelectorAll : string → State → option (list ElemId).


Lemma sublist_removeCreated el n l : removeCreated el n l `sublist_of` l.
Proof.
  induction l as [|j l IH]; simpl; [constructor|].
  destruct (_ && _); [by apply sublist_cons|by apply sublist_skip].
Qed.








End ScriptInvariants.



(** * What the operations leave alone *)

Section Frames.

Variable querySelectorAll : string → State → option (list ElemId).

Local Abbreviation pair el n :=
  (λ i : Instance, element i = el ∧ name (_ComponentConfig i) = n).


Lemma filter_removeCreated_other el n el' n' l :
  (el', n') ≠ (el, n) →
  filter (pair el' n') (removeCreated el n l) = filter (pair el' n') l.
Proof.
  intros Hne. induction l as [|i l IH]; [done|]. simpl.
  destruct (bool_decide (element i = el)
            && bool_decide (name (_ComponentConfig i) = n)) eqn:E.
  - apply andb_true_iff in E as [He%bool_decide_eq_true Hn%bool_decide_eq_true].
    rewrite filter_cons, decide_False; [done|].
    intros [? ?]. apply Hne. congruence.
  - rewrite !filter_cons, IH. done.
Qed.

(** An element-level downgrade spares every other pair. *)
Lemma downgrade_spares el n s el' n' :
  (el', n') ≠ (el, n) →
  let s' := state_of (_downgradeElementInternal el n s) in
  instancesOf s' el' n' = instancesOf s el' n'
  ∧ getProperty s' el' n' = getProperty s el' n'.
Proof.
  intros Hne s'. subst s'.
  destruct (getAttribute s el) as [m|] eqn:Hm; [|by rewrite downgrade_absent].
  destruct (decide (n ∈ JsString.split m)) as [Hn|Hn];
    [|by rewrite (downgrade_skip _ _ m)].
  destruct (downgrade_runs el n m s Hm Hn) as (s' & -> & _ & Hcr & Hel & Hother).
  simpl. split.
  - unfold instancesOf. rewrite Hcr. by apply filter_removeCreated_other.
  - unfold getProperty. destruct (decide (el' = el)) as [->|He].
    + rewrite Hel. simpl. apply lookup_delete_ne. congruence.
    + by rewrite Hother.
Qed.


(** X9: [downgrade] by class touches no component of another name,
    whatever elements the substring selector returns: the instances and
    the property of every pair whose name is not the name registered
    under the class stay as they were. *)
Theorem downgrade_spares_other_names c s el n' :
  (∀ k r, asNonEmptyString c = Some k →
          findByClass (_registeredComponents s) k = Some r → name r ≠ n') →
  let s' := state_of (_downgrade querySelectorAll c s) in
  instancesOf s' el n' = instancesOf s el n'
  ∧ getProperty s' el n' = getProperty s el n'.
Proof.
  intros Hname s'. subst s'. unfold _downgrade.
  destruct (asNonEmptyString c) as [k|] eqn:Hk; [|done].
  destruct (querySelectorAll _ s) as [elements|]; [|done].
  apply (forEach_preserves_all
           (λ s', instancesOf s' el n' = instancesOf s el n'
                  ∧ getProperty s' el n' = getProperty s el n')); [|done].
  intros e s' [H1 H2].
  destruct (findByClass (_registeredComponents s) k) as [r|] eqn:Hr; simpl.
  - destruct (downgrade_spares e (name r) s' el n') as [H3 H4].
    { intros [= _ E]. by apply (Hname k r). }
    by rewrite H3, H4.
  - by destruct (getAttribute s' e).
Qed.

Lemma forEach_skips {A} (body : A → State → Completion) l s :
  (∀ x, x ∈ l → body x s = Normal s) → forEach body l s = Normal s.
Proof.
  induction l as [|x l IH]; intros H; [done|]. simpl.
  rewrite H by left. simpl. apply IH. intros y Hy. apply H. by right.
Qed.



(** X11: an element that carries none of the registered classes is
    left untouched by the three upgrade operations: its attribute, its
    properties and its instances stay as they were. *)
Theorem upgrade_ignores_unclassed s el :
  (∀ r, r ∈ _registeredComponents s → cssClass r ∉ classList (elementOf s el)) →
  (∀ target optionalCssClass,
     let s' := state_of (_upgradeElement target optionalCssClass s) in
     elementOf s' el = elementOf s el ∧ namesOn s' el = namesOn s el)
  ∧ (∀ c, let s' := state_of (_upgrade querySelectorAll c s) in
          elementOf s' el = elementOf s el ∧ namesOn s' el = namesOn s el)
  ∧ (let s' := state_of (_upgradeAll querySelectorAll s) in
     elementOf s' el = elementOf s el ∧ namesOn s' el = namesOn s el).
Proof.
  intros Hnone.
  destruct (upgrade_ops_keep querySelectorAll
              (λ s', elementOf s' el = elementOf s el
                     ∧ namesOn s' el = namesOn s el
                     ∧ _registeredComponents s' = _registeredComponents s))
    as (U1 & U2 & U3).
  { intros e c s' (H1 & H2 & H3) Hc. rewrite upgrade_registered.
    split; [|split; [|done]].
    - destruct (decide (cssClass c ∈ classList (elementOf s' e))) as [Hcl|Hcl];
        [|by rewrite upgrade_skip_class].
      destruct (_isUpgradedElement s' e (name c)) eqn:Hu;
        [by rewrite upgrade_skip_upgraded|].
      destruct (upgrade_runs e c s' Hcl Hu) as (_ & _ & _ & Hother).
      rewrite Hother; [done|]. intros ->. rewrite H1 in Hcl.
      apply (Hnone c); [by rewrite <- H3|done].
    - destruct (decide (cssClass c ∈ classList (elementOf s' e))) as [Hcl|Hcl];
        [|by rewrite upgrade_skip_class].
      destruct (_isUpgradedElement s' e (name c)) eqn:Hu;
        [by rewrite upgrade_skip_upgraded|].
      destruct (upgrade_runs e c s' Hcl Hu) as (_ & Hcr & _ & _).
      unfold namesOn in *. rewrite Hcr, namesOf_app, namesOf_cons. simpl.
      rewrite decide_False; [by rewrite app_nil_r|].
      intros ->. rewrite H1 in Hcl. apply (Hnone c); [by rewrite <- H3|done]. }
  repeat split.
  - by apply (U1 target optionalCssClass s).
  - by apply (U1 target optionalCssClass s).
  - by apply (U2 c s).
  - by apply (U2 c s).
  - by apply (U3 s).
  - by apply (U3 s).
Qed.


(** X13: the three downgrade operations never add an instance: the
    table after is a sublist of the table before, in the same order, and
    the registration table is unchanged. *)
Theorem downgrade_only_removes s :
  (∀ target optionalCssClass,
     let s' := state_of (_downgradeElement target optionalCssClass s) in
     _createdComponents s' `sublist_of` _createdComponents s
     ∧ _registeredComponents s' = _registeredComponents s)
  ∧ (∀ c, let s' := state_of (_downgrade querySelectorAll c s) in
          _createdComponents s' `sublist_of` _createdComponents s
          ∧ _registeredComponents s' = _registeredComponents s)
  ∧ (let s' := state_of (_downgradeAll s) in
     _createdComponents s' `sublist_of` _createdComponents s
     ∧ _registeredComponents s' = _registeredComponents s).
Proof.
  destruct (downgrade_ops_keep querySelectorAll
              (λ s', _createdComponents s' `sublist_of` _createdComponents s
                     ∧ _registeredComponents s' = _registeredComponents s))
    as (D1 & D2 & D3).
  { intros e n s' [H1 H2]. rewrite downgrade_registered. split; [|done].
    destruct (getAttribute s' e) as [m|] eqn:Hm; [|by rewrite downgrade_absent].
    destruct (decide (n ∈ JsString.split m)) as [Hn|Hn];
      [|by rewrite (downgrade_skip _ _ m)].
    destruct (downgrade_runs e n m s' Hm Hn) as (s'' & -> & _ & Hcr & _).
    simpl. rewrite Hcr. etrans; [apply sublist_removeCreated|done]. }
  repeat split.
  - by apply (D1 target optionalCssClass s).
  - by apply (D1 target optionalCssClass s).
  - by apply (D2 c s).
  - by apply (D2 c s).
  - by apply (D3 s).
  - by apply (D3 s).
Qed.

End Frames.


Lemma downgrade_spares_other_names_witness :
  let s := run no_match [DoRegister (config_of "Clock" "a");
                         DoRegister (config_of "ClockPro" "b");
                         DoUpgradeElement (TElement 0) VUndefined]
               (initialState (page_of ["a"; "b"])) in
  let s' := state_of (_downgrade match_first (VString "a") s) in
  getAttribute s 0 = Some "Clock,ClockPro"
  ∧ getAttribute s' 0 = Some "ClockPro"
  ∧ instancesOf s' 0 "ClockPro" = instancesOf s 0 "ClockPro"
  ∧ getProperty s' 0 "ClockPro" = getProperty s 0 "ClockPro".
Proof.
  intros s s'. split; [reflexivity|]. split; [reflexivity|].
  apply (downgrade_spares_other_names match_first (VString "a") s 0 "ClockPro").
  intros k r [= <-] [= <-]. discriminate.
Defined.


Lemma upgrade_ignores_unclassed_witness :
  let s := state_of (_register (config_of "Clock" "a") (initialState (page_of ["z"]))) in
  (∀ r, r ∈ _registeredComponents s → cssClass r ∉ classList (elementOf s 0))
  ∧ (let s' := state_of (_upgradeAll match_first s) in
     elementOf s' 0 = elementOf s 0 ∧ namesOn s' 0 = namesOn s 0).
Proof.
  intros s.
  assert (∀ r, r ∈ _registeredComponents s → cssClass r ∉ classList (elementOf s 0)) as H.
  { intros r [->|Hr]%elem_of_cons; [|by apply elem_of_nil in Hr].
    intros [E|E]%elem_of_cons; [discriminate|by apply elem_of_nil in E]. }
  split; [exact H|].
  exact (proj2 (proj2 (upgrade_ignores_unclassed match_first s 0 H))).
Defined.

(** * Upgrades that find the work done *)

Section Settled.

Variable querySelectorAll : string → State → option (list ElemId).






(** The loop of [_upgradeElement] over the classes of the element. *)
Local Abbreviation pass el :=
  (forEach (λ c s,
              match _getRegisteredByClass s c with
              | Some registeredComponent =>
                  Normal (_upgradeElementInternal el registeredComponent s)
              | None => Normal s
              end)).





End Settled.

(** * Round trip and full downgrade *)

Section RoundTripExact.







End RoundTripExact.

Section FullDowngrade.



End FullDowngrade.







(** * The operations by class *)

Section ByClass.

Variable querySelectorAll : string → State → option (list ElemId).

Lemma forEach_app {A} (body : A → State → Completion) l1 l2 s :
  forEach body (l1 ++ l2) s = andThen (forEach body l1 s) (forEach body l2).
Proof.
  revert s. induction l1 as [|x l1 IH]; intros s; [done|]. simpl.
  destruct (body x s) as [s1|e s1]; simpl; [apply IH|done].
Qed.




(** X19: while the registered classes are distinct, [upgrade] by class
    is the upgrade of the one definition registered under it. *)
Theorem upgrade_by_class_one s r :
  NoDup (cssClass <$> _registeredComponents s) →
  r ∈ _registeredComponents s →
  _upgrade querySelectorAll (VString (cssClass r)) s = _upgradeInternal querySelectorAll r s.
Proof.
  intros Hnd (l1 & l2 & Hl)%list_elem_of_split. unfold _upgrade. rewrite Hl in *.
  rewrite fmap_app, fmap_cons in Hnd.
  apply NoDup_app in Hnd as (_ & H1 & [H2 _]%NoDup_cons).
  set (body := λ registered s,
         if strictEqualsString (cssClass registered) (VString (cssClass r))
         then _upgradeInternal querySelectorAll registered s else Normal s).
  assert (∀ l s0, cssClass r ∉ (cssClass <$> l) → forEach body l s0 = Normal s0) as Hskip.
  { intros l s0 Hl0. apply forEach_skips. intros x Hx. unfold body. simpl.
    rewrite bool_decide_eq_false_2; [done|].
    intros E. apply Hl0. rewrite <- E. apply list_elem_of_fmap. by exists x. }
  rewrite forEach_app, Hskip.
  - simpl. unfold body at 1. simpl. rewrite bool_decide_eq_true_2 by done.
    destruct (_upgradeInternal querySelectorAll r s) as [s1|e s1]; simpl; [|done].
    by apply Hskip.
  - intros Hin. apply (H1 _ Hin). left.
Qed.

End ByClass.


Lemma upgrade_by_class_one_witness :
  let s := run no_match [DoRegister (config_of "Clock" "a");
                         DoRegister (config_of "Watch" "b")]
               (initialState (page_of ["a"; "b"])) in
  NoDup (cssClass <$> _registeredComponents s)
  ∧ _upgrade match_first (VString "b") s
    = _upgradeInternal match_first (definition_of "Watch" "b") s.
Proof.
  intros s.
  assert (NoDup (cssClass <$> _registeredComponents s)) as Hnd.
  { apply (bool_decide_unpack _). vm_compute. exact I. }
  split; [exact Hnd|].
  apply (upgrade_by_class_one match_first s (definition_of "Watch" "b") Hnd).
  right. left.
Defined.
